(** * The bucket provisioner [init-s3.py]

    The script is a straight-line Python module body: it builds a boto3
    session and an S3 client from literal constants, then calls
    [create_bucket], [put_bucket_versioning] and, inside a [with open(...)]
    block, [upload_fileobj].  It contains no [try], no branch and no loop.

    The embedding keeps that shape.  The script is a term [main] of a small
    state-and-exception monad.  Every call that leaves the script (to the
    storage service or to the local file system) is answered by an
    environment [Env W], which owns a world state [W] and may return or
    raise; the monad records each call with its outcome in a log, so that
    statements about the order of the calls can be made for every
    environment.  A concrete environment, [Store], gives the storage
    service and the file system the behaviour that the specification
    describes. *)

From stdpp Require Import gmap strings list fin_maps.
From Stdlib.Strings Require Import Byte.
From Stdlib Require Import ZArith.

Local Open Scope string_scope.

(** ** Values of the script *)

Abbreviation bytes := (list byte).

(** [boto3.Session(aws_access_key_id=, aws_secret_access_key=, region_name=)] *)
Record Session : Type := mkSession {
  aws_access_key_id : string;
  aws_secret_access_key : string;
  session_region_name : string
}.

(** [session.client(service, endpoint_url=, region_name=)] *)
Record Client : Type := mkClient {
  client_session : Session;
  service_name : string;
  endpoint_url : string;
  region_name : string
}.

(** Building a session or a client sends nothing: boto3 clients are lazy. *)
Definition boto3_Session (key secret region : string) : Session :=
  mkSession key secret region.

Definition Session_client (s : Session) (service endpoint region : string) : Client :=
  mkClient s service endpoint region.

(** An open file object, named by its descriptor. *)
Definition handle : Type := nat.

(** The exceptions of the error taxonomy, and any other Python exception. *)
Inductive exn : Type :=
| ConnectionError
| BucketAlreadyExists
| NoSuchBucket
| FileNotFound
| UploadRejected
| OtherException (name : string).

Inductive result (A : Type) : Type :=
| Ok (a : A)
| Raise (e : exn).
Arguments Ok {A} a.
Arguments Raise {A} e.

(** ** Calls leaving the script, and their log *)

Inductive call : Type :=
| CreateBucket (client : Client) (Bucket LocationConstraint : string)
| PutBucketVersioning (client : Client) (Bucket Status : string)
| OpenFile (file mode : string)
| UploadFileobj (client : Client) (Fileobj : handle) (Bucket Key : string)
| CloseFile (Fileobj : handle).

Inductive value : Type :=
| VNone
| VFile (h : handle).

Inductive outcome : Type :=
| Returned (v : value)
| Raised (e : exn).

Definition entry : Type := call * outcome.

Definition is_remote (c : call) : bool :=
  match c with
  | CreateBucket _ _ _ | PutBucketVersioning _ _ _ | UploadFileobj _ _ _ _ => true
  | OpenFile _ _ | CloseFile _ => false
  end.

Definition is_close (c : call) : bool :=
  match c with
  | CloseFile _ => true
  | _ => false
  end.

Definition remote_calls (t : list entry) : list call :=
  filter (fun c => is_remote c = true) (map fst t).

Definition client_of (c : call) : option Client :=
  match c with
  | CreateBucket cl _ _ | PutBucketVersioning cl _ _ | UploadFileobj cl _ _ _ => Some cl
  | OpenFile _ _ | CloseFile _ => None
  end.

Definition bucket_of (c : call) : option string :=
  match c with
  | CreateBucket _ b _ | PutBucketVersioning _ b _ | UploadFileobj _ _ b _ => Some b
  | OpenFile _ _ | CloseFile _ => None
  end.

(** ** The environment: storage service and file system *)

Record Env (W : Type) : Type := mkEnv {
  env_create_bucket : Client -> string -> string -> W -> result unit * W;
  env_put_bucket_versioning : Client -> string -> string -> W -> result unit * W;
  env_open : string -> string -> W -> result handle * W;
  env_upload_fileobj : Client -> handle -> string -> string -> W -> result unit * W;
  env_close : handle -> W -> result unit * W
}.
Arguments env_create_bucket {W} _ _ _ _ _.
Arguments env_put_bucket_versioning {W} _ _ _ _ _.
Arguments env_open {W} _ _ _ _.
Arguments env_upload_fileobj {W} _ _ _ _ _ _.
Arguments env_close {W} _ _ _.

(** ** The monad of the script: world, log, exceptions *)

Record config (W : Type) : Type := mkConfig {
  world : W;
  log : list entry
}.
Arguments mkConfig {W} _ _.
Arguments world {W} _.
Arguments log {W} _.

Definition M (W A : Type) : Type := config W -> result A * config W.

Definition ret {W A} (a : A) : M W A := fun s => (Ok a, s).

(** Sequencing of statements: an exception skips the rest. *)
Definition bind {W A B} (m : M W A) (k : A -> M W B) : M W B :=
  fun s =>
    match m s with
    | (Ok a, s1) => k a s1
    | (Raise e, s1) => (Raise e, s1)
    end.

Declare Scope script_scope.
Delimit Scope script_scope with script.
Notation "x <- m ;; k" := (bind m (fun x => k))
  (at level 100, m at next level, right associativity) : script_scope.
Notation "m ;; k" := (bind m (fun _ => k))
  (at level 100, right associativity) : script_scope.

Definition outcome_of {A} (to_value : A -> value) (r : result A) : outcome :=
  match r with
  | Ok a => Returned (to_value a)
  | Raise e => Raised e
  end.

(** One call: the environment answers, the call and its outcome are logged. *)
Definition perform {W A} (c : call) (to_value : A -> value)
    (f : W -> result A * W) : M W A :=
  fun s =>
    let '(r, w1) := f (world s) in
    (r, mkConfig w1 (log s ++ [(c, outcome_of to_value r)])).

Section Script.
Context {W : Type} (env : Env W).

Definition create_bucket (cl : Client) (Bucket LocationConstraint : string) : M W unit :=
  perform (CreateBucket cl Bucket LocationConstraint) (fun _ => VNone)
          (env_create_bucket env cl Bucket LocationConstraint).

Definition put_bucket_versioning (cl : Client) (Bucket Status : string) : M W unit :=
  perform (PutBucketVersioning cl Bucket Status) (fun _ => VNone)
          (env_put_bucket_versioning env cl Bucket Status).

Definition open (file mode : string) : M W handle :=
  perform (OpenFile file mode) VFile (env_open env file mode).

Definition upload_fileobj (cl : Client) (Fileobj : handle) (Bucket Key : string) : M W unit :=
  perform (UploadFileobj cl Fileobj Bucket Key) (fun _ => VNone)
          (env_upload_fileobj env cl Fileobj Bucket Key).

Definition close (Fileobj : handle) : M W unit :=
  perform (CloseFile Fileobj) (fun _ => VNone) (env_close env Fileobj).

(** [with open(file, mode) as data: body].  If [open] raises, nothing is
    entered.  Otherwise the body runs and the file object's [__exit__]
    closes it, after a normal end and after an exception alike; [__exit__]
    returns a false value, so an exception of the body is raised again, and
    an exception of [close] itself takes its place. *)
Definition with_open {A} (file mode : string) (body : handle -> M W A) : M W A :=
  fun s =>
    match open file mode s with
    | (Raise e, s1) => (Raise e, s1)
    | (Ok data, s1) =>
        let '(r, s2) := body data s1 in
        match close data s2 with
        | (Ok _, s3) => (r, s3)
        | (Raise e', s3) => (Raise e', s3)
        end
    end.

(** *** The module body of [init-s3.py] *)

Definition session : Session :=
  boto3_Session "test" "test" "ap-south-1".

Definition s3_client : Client :=
  Session_client session "s3" "http://localhost:4566" "ap-south-1".

Definition create_bucket_step : M W unit :=
  create_bucket s3_client "java-http" "ap-south-1".

Definition put_bucket_versioning_step : M W unit :=
  put_bucket_versioning s3_client "java-http" "Enabled".

Definition zip_file_path : string := "/build/tmp/agreements.zip".

Definition upload_step : M W unit :=
  with_open zip_file_path "rb"
    (fun data => upload_fileobj s3_client data "java-http" "agreements.zip").

Definition main : M W unit :=
  (create_bucket_step ;;
   put_bucket_versioning_step ;;
   upload_step)%script.

(** A run starts with an empty log. *)
Definition run {A} (p : M W A) (w : W) : result A * config W :=
  p (mkConfig w []).

Definition run_result (w : W) : result unit := fst (run main w).
Definition run_trace (w : W) : list entry := log (snd (run main w)).
Definition run_world (w : W) : W := world (snd (run main w)).
End Script.

(** The interpreter's exit status: 0 at the end of the module body, 1 for an
    exception that nothing caught. *)
Definition exit_code {A} (r : result A) : Z :=
  match r with
  | Ok _ => 0
  | Raise _ => 1
  end.

(** ** The backing store and the local file system *)

Module Store.

(** Modelled from the spec: the object-storage service and the local file
    system are external collaborators, and no code of them is part of the
    repository.  A bucket has a location constraint and a versioning state
    (enabled or disabled); creating a bucket that exists fails with
    [BucketAlreadyExists]; setting the versioning of a missing bucket fails
    with [NoSuchBucket]; with versioning enabled an upload to an existing key
    adds a version and keeps the earlier ones, otherwise it replaces the
    content; opening a path that does not exist fails with [FileNotFound]. *)

Inductive versioning_status : Type :=
| Disabled
| Enabled.

Record Bucket : Type := mkBucket {
  location : string;
  versioning : versioning_status;
  objects : gmap string (list bytes)
}.

(** [buckets]: the service's state.  [files]: the file system, path to
    content.  [open_files]: each open file object with the bytes it has not
    yet delivered.  [environ] and [argv]: the process environment, which no
    operation of the environment reads. *)
Record World : Type := mkWorld {
  buckets : gmap string Bucket;
  files : gmap string bytes;
  open_files : gmap nat bytes;
  environ : gmap string string;
  argv : list string
}.

Definition set_buckets (w : World) (bs : gmap string Bucket) : World :=
  mkWorld bs (files w) (open_files w) (environ w) (argv w).

Definition set_open_files (w : World) (fs : gmap nat bytes) : World :=
  mkWorld (buckets w) (files w) fs (environ w) (argv w).

Definition set_files (w : World) (fs : gmap string bytes) : World :=
  mkWorld (buckets w) fs (open_files w) (environ w) (argv w).

Definition status_of_string (s : string) : versioning_status :=
  if String.eqb s "Enabled" then Enabled else Disabled.

Definition store_create_bucket (cl : Client) (name loc : string) (w : World)
    : result unit * World :=
  match buckets w !! name with
  | Some _ => (Raise BucketAlreadyExists, w)
  | None => (Ok tt, set_buckets w (<[name := mkBucket loc Disabled ∅]> (buckets w)))
  end.

Definition store_put_bucket_versioning (cl : Client) (name status : string) (w : World)
    : result unit * World :=
  match buckets w !! name with
  | None => (Raise NoSuchBucket, w)
  | Some b =>
      (Ok tt,
       set_buckets w
         (<[name := mkBucket (location b) (status_of_string status) (objects b)]>
            (buckets w)))
  end.

(** The versions of a key after one more upload, oldest first. *)
Definition put_version (v : versioning_status) (old : option (list bytes)) (data : bytes)
    : list bytes :=
  match v with
  | Enabled => (default [] old ++ [data])%list
  | Disabled => [data]
  end.

Definition put_object (b : Bucket) (key : string) (data : bytes) : Bucket :=
  mkBucket (location b) (versioning b)
           (<[key := put_version (versioning b) (objects b !! key) data]> (objects b)).

(** The upload reads the file object to its end, then stores what it read. *)
Definition store_upload_fileobj (cl : Client) (h : handle) (name key : string) (w : World)
    : result unit * World :=
  match open_files w !! h with
  | None => (Raise (OtherException "ValueError"), w)
  | Some data =>
      let w1 := set_open_files w (<[h := []]> (open_files w)) in
      match buckets w !! name with
      | None => (Raise NoSuchBucket, w1)
      | Some b => (Ok tt, set_buckets w1 (<[name := put_object b key data]> (buckets w)))
      end
  end.

Definition readable_mode (mode : string) : bool :=
  String.eqb mode "rb" || String.eqb mode "r".

Definition store_open (file mode : string) (w : World) : result handle * World :=
  if readable_mode mode then
    match files w !! file with
    | None => (Raise FileNotFound, w)
    | Some content =>
        let fd := fresh (dom (open_files w)) in
        (Ok fd, set_open_files w (<[fd := content]> (open_files w)))
    end
  else (Raise (OtherException "UnsupportedOperation"), w).

Definition store_close (h : handle) (w : World) : result unit * World :=
  (Ok tt, set_open_files w (delete h (open_files w))).

(** Modelled from the spec: the environment made of the operations above. *)
Definition env : Env World :=
  mkEnv World store_create_bucket store_put_bucket_versioning
        store_open store_upload_fileobj store_close.

(** A fresh store beside a file system [fs]. *)
Definition fresh_world (fs : gmap string bytes) : World :=
  mkWorld ∅ fs ∅ ∅ [].

(** The archive of the example scenario: the end-of-central-directory
    signature of an empty zip file. *)
Definition zip_bytes : bytes := [x50; x4b; x05; x06].

Definition zip_world : World :=
  fresh_world {[ "/build/tmp/agreements.zip" := zip_bytes ]}.

(** The store as the provisioner leaves it: the world of a second run. *)
Definition provisioned_world : World := run_world env zip_world.

(** A store that has the bucket already, beside a file system without the
    archive. *)
Definition existing_bucket_no_file : World :=
  mkWorld {[ "java-http" := mkBucket "ap-south-1" Enabled ∅ ]} ∅ ∅ ∅ [].

(** A store that has the bucket, versioning enabled, and no object yet. *)
Definition versioned_world : World :=
  mkWorld {[ "java-http" := mkBucket "ap-south-1" Enabled ∅ ]}
          {[ "/build/tmp/agreements.zip" := zip_bytes ]} ∅ ∅ [].

(** The run fails at the upload step only: the two requests before it have
    returned, opening the source file raises [FileNotFound], and the store
    keeps the bucket, with versioning enabled and no object. *)
Definition fails_at_upload_step_only (w : World) : Prop :=
  run_result env w = Raise FileNotFound /\
  run_trace env w =
    [(CreateBucket s3_client "java-http" "ap-south-1", Returned VNone);
     (PutBucketVersioning s3_client "java-http" "Enabled", Returned VNone);
     (OpenFile "/build/tmp/agreements.zip" "rb", Raised FileNotFound)] /\
  exists b : Bucket,
    buckets (run_world env w) !! "java-http" = Some b /\
    versioning b = Enabled /\
    objects b = ∅.

(** The world after the [with] block has run once more. *)
Definition after_upload (w : World) : World :=
  world (snd (run (upload_step env) w)).

(** The source file gets a new content between two uploads. *)
Definition rewrite_source (w : World) (content : bytes) : World :=
  set_files w (<["/build/tmp/agreements.zip" := content]> (files w)).

(** Two worlds with the same store, file system and open files; the process
    environment is free. *)
Definition same_resources (w1 w2 : World) : Prop :=
  buckets w1 = buckets w2 /\ files w1 = files w2 /\ open_files w1 = open_files w2.


End Store.

(** ** The shapes a run can take

    The script has five calls and no handler, so a run of [main] has one of
    seven shapes, by the first call that raises and, for the upload, by
    whether the closing of the file raises too. *)

Section Execution.
Context {W : Type} (env : Env W).

Definition create_call : call := CreateBucket s3_client "java-http" "ap-south-1".
Definition versioning_call : call := PutBucketVersioning s3_client "java-http" "Enabled".
Definition open_call : call := OpenFile "/build/tmp/agreements.zip" "rb".
Definition upload_call (h : handle) : call :=
  UploadFileobj s3_client h "java-http" "agreements.zip".

Inductive execution (w : W) : result unit -> list entry -> W -> Prop :=
| exec_create_raises e w1 :
    env_create_bucket env s3_client "java-http" "ap-south-1" w = (Raise e, w1) ->
    execution w (Raise e) [(create_call, Raised e)] w1
| exec_versioning_raises e w1 w2 :
    env_create_bucket env s3_client "java-http" "ap-south-1" w = (Ok tt, w1) ->
    env_put_bucket_versioning env s3_client "java-http" "Enabled" w1 = (Raise e, w2) ->
    execution w (Raise e)
      [(create_call, Returned VNone); (versioning_call, Raised e)] w2
| exec_open_raises e w1 w2 w3 :
    env_create_bucket env s3_client "java-http" "ap-south-1" w = (Ok tt, w1) ->
    env_put_bucket_versioning env s3_client "java-http" "Enabled" w1 = (Ok tt, w2) ->
    env_open env "/build/tmp/agreements.zip" "rb" w2 = (Raise e, w3) ->
    execution w (Raise e)
      [(create_call, Returned VNone); (versioning_call, Returned VNone);
       (open_call, Raised e)] w3
| exec_upload_done r h o w1 w2 w3 w4 w5 :
    env_create_bucket env s3_client "java-http" "ap-south-1" w = (Ok tt, w1) ->
    env_put_bucket_versioning env s3_client "java-http" "Enabled" w1 = (Ok tt, w2) ->
    env_open env "/build/tmp/agreements.zip" "rb" w2 = (Ok h, w3) ->
    env_upload_fileobj env s3_client h "java-http" "agreements.zip" w3 = (r, w4) ->
    o = outcome_of (fun _ : unit => VNone) r ->
    env_close env h w4 = (Ok tt, w5) ->
    execution w r
      [(create_call, Returned VNone); (versioning_call, Returned VNone);
       (open_call, Returned (VFile h)); (upload_call h, o);
       (CloseFile h, Returned VNone)] w5
| exec_close_raises r h o e w1 w2 w3 w4 w5 :
    env_create_bucket env s3_client "java-http" "ap-south-1" w = (Ok tt, w1) ->
    env_put_bucket_versioning env s3_client "java-http" "Enabled" w1 = (Ok tt, w2) ->
    env_open env "/build/tmp/agreements.zip" "rb" w2 = (Ok h, w3) ->
    env_upload_fileobj env s3_client h "java-http" "agreements.zip" w3 = (r, w4) ->
    o = outcome_of (fun _ : unit => VNone) r ->
    env_close env h w4 = (Raise e, w5) ->
    execution w (Raise e)
      [(create_call, Returned VNone); (versioning_call, Returned VNone);
       (open_call, Returned (VFile h)); (upload_call h, o);
       (CloseFile h, Raised e)] w5.

End Execution.

(** ** Reading a log *)

Definition raised_exn (e : entry) : option exn :=
  match snd e with
  | Raised x => Some x
  | Returned _ => None
  end.

(** The exception of the last call that raised, if any did. *)
Definition last_raised (t : list entry) : option exn :=
  last (omap raised_exn t).

(** The log of a run in which all five calls return. *)
Definition complete_trace (h : handle) : list entry :=
  [(CreateBucket s3_client "java-http" "ap-south-1", Returned VNone);
   (PutBucketVersioning s3_client "java-http" "Enabled", Returned VNone);
   (OpenFile "/build/tmp/agreements.zip" "rb", Returned (VFile h));
   (UploadFileobj s3_client h "java-http" "agreements.zip", Returned VNone);
   (CloseFile h, Returned VNone)].

(** The three requests to the storage service; [h] is the file object that
    is uploaded.  The location constraint is written as the region of the
    session. *)
Definition three_requests (h : handle) : list call :=
  [CreateBucket s3_client "java-http" (session_region_name session);
   PutBucketVersioning s3_client "java-http" "Enabled";
   UploadFileobj s3_client h "java-http" "agreements.zip"].

(** A run issues exactly the three requests, the upload taking the file
    object that [open] returned for the source path. *)
Definition issues_three_requests {W} (env : Env W) (w : W) : Prop :=
  exists h : handle,
    (exists i : nat,
       run_trace env w !! i =
         Some (OpenFile "/build/tmp/agreements.zip" "rb", Returned (VFile h))) /\
    remote_calls (run_trace env w) = three_requests h.

(** The constants of the configuration surface, written out. *)
Definition literal_client : Client :=
  {| client_session :=
       {| aws_access_key_id := "test";
          aws_secret_access_key := "test";
          session_region_name := "ap-south-1" |};
     service_name := "s3";
     endpoint_url := "http://localhost:4566";
     region_name := "ap-south-1" |}.


(** Two environments behave identically along a relation [R] of their
    worlds: from related worlds every operation gives the same answer and
    related worlds again. *)
Definition same_answer {W1 W2 A} (R : W1 -> W2 -> Prop)
    (a1 : result A * W1) (a2 : result A * W2) : Prop :=
  fst a1 = fst a2 /\ R (snd a1) (snd a2).

Record env_sim {W1 W2} (R : W1 -> W2 -> Prop) (env1 : Env W1) (env2 : Env W2) : Prop :=
  mkEnvSim {
    sim_create_bucket : forall cl b l w1 w2, R w1 w2 ->
      same_answer R (env_create_bucket env1 cl b l w1) (env_create_bucket env2 cl b l w2);
    sim_put_bucket_versioning : forall cl b s w1 w2, R w1 w2 ->
      same_answer R (env_put_bucket_versioning env1 cl b s w1)
                    (env_put_bucket_versioning env2 cl b s w2);
    sim_open : forall f m w1 w2, R w1 w2 ->
      same_answer R (env_open env1 f m w1) (env_open env2 f m w2);
    sim_upload_fileobj : forall cl h b k w1 w2, R w1 w2 ->
      same_answer R (env_upload_fileobj env1 cl h b k w1)
                    (env_upload_fileobj env2 cl h b k w2);
    sim_close : forall h w1 w2, R w1 w2 ->
      same_answer R (env_close env1 h w1) (env_close env2 h w2)
  }.

(** ** An environment that follows a script of answers *)

Definition is_upload (c : call) : bool :=
  match c with
  | UploadFileobj _ _ _ _ => true
  | _ => false
  end.

Module Scripted.

(** The world is the list of the answers still to give: each call takes the
    next one, [None] to return and [Some e] to raise [e]; once the list is
    used up every call returns.  [open] returns the descriptor 3. *)
Definition answer {A} (a : A) (w : list (option exn)) : result A * list (option exn) :=
  match w with
  | Some e :: w' => (Raise e, w')
  | None :: w' => (Ok a, w')
  | [] => (Ok a, [])
  end.

Definition env : Env (list (option exn)) :=
  mkEnv (list (option exn))
        (fun _ _ _ => answer tt)
        (fun _ _ _ => answer tt)
        (fun _ _ => answer 3)
        (fun _ _ _ _ => answer tt)
        (fun _ => answer tt).

End Scripted.

(** ** A client library that consults the process environment *)


Module Proxied.

(** The script hands its requests to boto3, which is not part of the
    repository.  Like most HTTP clients it honours the variable
    [HTTP_PROXY] of the process environment: when the variable is set, a
    request to an [http://] endpoint is sent to that proxy instead of the
    endpoint.  Here no proxy listens, so such a request raises
    [ConnectionError]; with the variable unset the request reaches the
    store.  The file operations are those of [Store]. *)
Definition via_proxy {A} (w : Store.World) (direct : result A * Store.World)
    : result A * Store.World :=
  match Store.environ w !! "HTTP_PROXY" with
  | Some _ => (Raise ConnectionError, w)
  | None => direct
  end.

Definition env : Env Store.World :=
  mkEnv Store.World
        (fun cl b l w => via_proxy w (Store.store_create_bucket cl b l w))
        (fun cl b s w => via_proxy w (Store.store_put_bucket_versioning cl b s w))
        Store.store_open
        (fun cl h b k w => via_proxy w (Store.store_upload_fileobj cl h b k w))
        Store.store_close.



End Proxied.

(** ** Every run has one of the shapes *)

Section ExecutionFacts.
Context {W : Type} (env : Env W).

Lemma run_execution (w : W) :
  execution env w (run_result env w) (run_trace env w) (run_world env w).
Proof.
  unfold run_result, run_trace, run_world, run, main, bind.
  unfold create_bucket_step, put_bucket_versioning_step, upload_step, with_open.
  unfold create_bucket, put_bucket_versioning, open, upload_fileobj, close, perform.
  unfold zip_file_path; cbn [world log app].
  destruct (env_create_bucket env s3_client "java-http" "ap-south-1" w)
    as [[[]|e1] w1] eqn:E1; cbn [world log app fst snd outcome_of];
    [| eapply exec_create_raises; eassumption].
  destruct (env_put_bucket_versioning env s3_client "java-http" "Enabled" w1)
    as [[[]|e2] w2] eqn:E2; cbn [world log app fst snd outcome_of];
    [| eapply exec_versioning_raises; eassumption].
  destruct (env_open env "/build/tmp/agreements.zip" "rb" w2)
    as [[h|e3] w3] eqn:E3; cbn [world log app fst snd outcome_of];
    [| eapply exec_open_raises; eassumption].
  destruct (env_upload_fileobj env s3_client h "java-http" "agreements.zip" w3)
    as [r w4] eqn:E4; cbn [world log app fst snd outcome_of].
  destruct (env_close env h w4) as [[[]|e5] w5] eqn:E5;
    cbn [world log app fst snd outcome_of].
  - eapply exec_upload_done; eauto.
  - eapply exec_close_raises; eauto.
Qed.

End ExecutionFacts.

(** ** Properties of every run, whatever the environment does *)

Section EveryRun.
Context {W : Type} (env : Env W).

Local Ltac run_cases w :=
  let H := fresh "Hexec" in
  pose proof (run_execution env w) as H;
  revert H;
  generalize (run_result env w) (run_trace env w) (run_world env w);
  intros ? ? ? H; destruct H.

Local Ltac index_cases i :=
  destruct i as [|[|[|[|[|?]]]]]; cbn in *; try discriminate.

(** C3. In every run, ended normally or by an exception, a call of
    [upload_fileobj] found in the log has before it the call of
    [create_bucket] and then the call of [put_bucket_versioning], both of
    which returned. *)
Theorem upload_only_after_bucket_and_versioning
    (w : W) (i : nat) (cl : Client) (h : handle) (b k : string) (o : outcome) :
  run_trace env w !! i = Some (UploadFileobj cl h b k, o) ->
  exists j1 j2 : nat,
    j1 < j2 /\ j2 < i /\
    run_trace env w !! j1 =
      Some (CreateBucket s3_client "java-http" "ap-south-1", Returned VNone) /\
    run_trace env w !! j2 =
      Some (PutBucketVersioning s3_client "java-http" "Enabled", Returned VNone).
Proof.
  run_cases w; intros Hi; index_cases i;
    exists 0, 1; repeat split; lia.
Qed.

(** C6. No exception is caught.  The run ends with the exception of the
    last call that raised, and ends normally only when no call raised; once
    a call has raised, the only call still made is the closing of the file by
    the [with] block; the exit status is 0 exactly when all five calls have
    returned, and non-zero exactly when some call raised.  This holds for
    every exception [e], those of the error taxonomy included. *)
Theorem no_error_is_caught (w : W) :
  run_result env w =
    match last_raised (run_trace env w) with
    | Some e => Raise e
    | None => Ok tt
    end /\
  (forall (i j : nat) (c c' : call) (e : exn) (o' : outcome),
     run_trace env w !! i = Some (c, Raised e) ->
     i < j ->
     run_trace env w !! j = Some (c', o') ->
     is_close c' = true) /\
  (exit_code (run_result env w) = 0%Z <->
     exists h : handle, run_trace env w = complete_trace h) /\
  (exit_code (run_result env w) <> 0%Z <->
     exists (i : nat) (c : call) (e : exn),
       run_trace env w !! i = Some (c, Raised e)).
Proof.
  run_cases w.
  - repeat split; try (cbn; congruence).
    + intros i j c c' e0 o' Hi Hlt Hj. index_cases i. index_cases j. lia.
    + intros [h Hh]. discriminate.
    + intros _. now exists 0, create_call, e.
  - repeat split; try (cbn; congruence).
    + intros i j c c' e0 o' Hi Hlt Hj. index_cases i. index_cases j; lia.
    + intros [h Hh]. discriminate.
    + intros _. now exists 1, versioning_call, e.
  - repeat split; try (cbn; congruence).
    + intros i j c c' e0 o' Hi Hlt Hj. index_cases i. index_cases j; lia.
    + intros [h Hh]. discriminate.
    + intros _. now exists 2, open_call, e.
  - subst o. destruct r as [[]|e]; repeat split; try (cbn; congruence).
    + intros i j c c' e0 o' Hi Hlt Hj. index_cases i.
    + intros _. now exists h.
    + intros (i & c & e0 & Hi). index_cases i.
    + intros i j c c' e0 o' Hi Hlt Hj. index_cases i. index_cases j; try lia.
      now inversion Hj.
    + intros [h0 Hh]. discriminate.
    + intros _. now exists 3, (upload_call h), e.
  - subst o. destruct r as [[]|e0]; repeat split; try (cbn; congruence).
    + intros i j c c' e1 o' Hi Hlt Hj. index_cases i. index_cases j; lia.
    + intros [h0 Hh]. discriminate.
    + intros _. now exists 4, (CloseFile h), e.
    + intros i j c c' e1 o' Hi Hlt Hj. index_cases i; index_cases j; try lia.
      now inversion Hj.
    + intros [h0 Hh]. discriminate.
    + intros _. now exists 4, (CloseFile h), e.
Qed.

(** C7. In every run that reaches the call of [upload_fileobj], the call
    just before it is [open] of the fixed path in mode [rb], which returned
    the file object that is uploaded, and the call just after it closes that
    same file object and is the last call of the run, whether the upload
    returned or raised ([o] is any outcome). *)
Theorem file_closed_after_upload
    (w : W) (i : nat) (cl : Client) (h : handle) (b k : string) (o : outcome) :
  run_trace env w !! i = Some (UploadFileobj cl h b k, o) ->
  (exists i0 : nat,
     i = S i0 /\
     run_trace env w !! i0 =
       Some (OpenFile "/build/tmp/agreements.zip" "rb", Returned (VFile h))) /\
  (exists o' : outcome, run_trace env w !! (S i) = Some (CloseFile h, o')) /\
  length (run_trace env w) = S (S i).
Proof.
  run_cases w; intros Hi; index_cases i;
    inversion Hi; subst; (split; [exists 2; now split|]); split; eauto.
Qed.

(** C10. Every request to the storage service found in the log of a run was
    issued through [s3_client], the one client, which was derived from
    [session], the one session, and names the bucket [java-http]; so the
    requests carry the same credentials, region and endpoint. *)
Theorem one_client_one_bucket (w : W) (i : nat) (c : call) (o : outcome) :
  run_trace env w !! i = Some (c, o) ->
  is_remote c = true ->
  client_of c = Some s3_client /\
  bucket_of c = Some "java-http" /\
  client_session s3_client = session /\
  s3_client = literal_client.
Proof.
  run_cases w; intros Hi Hc; index_cases i;
    inversion Hi; subst; try discriminate; repeat split.
Qed.

(** C2, as amended.  The requests of any run are an initial part of the
    three requests: [create_bucket] with the fixed name and the region of the
    session as location constraint, [put_bucket_versioning] with status
    [Enabled] on that bucket, [upload_fileobj] of the opened source file to
    that bucket under the fixed key; a run that completes issues exactly
    these three, in this order. *)
Theorem requests_of_a_run (w : W) :
  (exists h : handle, remote_calls (run_trace env w) `prefix_of` three_requests h) /\
  (run_result env w = Ok tt -> issues_three_requests env w).
Proof.
  unfold issues_three_requests.
  run_cases w.
  - split; [exists 0; now exists (skipn 1 (three_requests 0)) | discriminate].
  - split; [exists 0; now exists (skipn 2 (three_requests 0)) | discriminate].
  - split; [exists 0; now exists (skipn 2 (three_requests 0)) | discriminate].
  - split; [exists h; now exists [] |].
    intros _. exists h. split; [now exists 2 | reflexivity].
  - split; [exists h; now exists [] | discriminate].
Qed.

End EveryRun.

(** ** Two runs side by side *)

Section TwoRuns.
Context {W1 W2 : Type} (env1 : Env W1) (env2 : Env W2) (R : W1 -> W2 -> Prop).

Lemma execution_functional (w : W1) (r : result unit) (t : list entry) (w' : W1) :
  execution env1 w r t w' ->
  r = run_result env1 w /\ t = run_trace env1 w /\ w' = run_world env1 w.
Proof.
  intros H.
  unfold run_result, run_trace, run_world, run, main, bind.
  unfold create_bucket_step, put_bucket_versioning_step, upload_step, with_open.
  unfold create_bucket, put_bucket_versioning, open, upload_fileobj, close, perform.
  unfold zip_file_path; cbn [world log app].
  destruct H;
    repeat match goal with
           | E : _ = (_, _) |- _ => rewrite E; clear E; cbn [world log app fst snd outcome_of]
           end;
    subst; auto.
Qed.



End TwoRuns.



(** ** Runs against the backing store *)

Module StoreRuns.
Import Store.

Lemma create_absent (cl : Client) (name loc : string) (w : World) :
  buckets w !! name = None ->
  env_create_bucket env cl name loc w =
    (Ok tt, set_buckets w (<[name := mkBucket loc Disabled ∅]> (buckets w))).
Proof. intros H. cbn. unfold store_create_bucket. now rewrite H. Qed.

Lemma create_present (cl : Client) (name loc : string) (w : World) (b : Bucket) :
  buckets w !! name = Some b ->
  env_create_bucket env cl name loc w = (Raise BucketAlreadyExists, w).
Proof. intros H. cbn. unfold store_create_bucket. now rewrite H. Qed.

Lemma versioning_present (cl : Client) (name status : string) (w : World) (b : Bucket) :
  buckets w !! name = Some b ->
  env_put_bucket_versioning env cl name status w =
    (Ok tt,
     set_buckets w
       (<[name := mkBucket (location b) (status_of_string status) (objects b)]> (buckets w))).
Proof. intros H. cbn. unfold store_put_bucket_versioning. now rewrite H. Qed.

Lemma open_absent (file : string) (w : World) :
  files w !! file = None ->
  env_open env file "rb" w = (Raise FileNotFound, w).
Proof. intros H. cbn. unfold store_open. now rewrite H. Qed.

Lemma open_present (file : string) (w : World) (content : bytes) :
  files w !! file = Some content ->
  env_open env file "rb" w =
    (Ok (fresh (dom (open_files w))),
     set_open_files w (<[fresh (dom (open_files w)) := content]> (open_files w))).
Proof. intros H. cbn. unfold store_open. now rewrite H. Qed.

Lemma upload_present (cl : Client) (h : handle) (name key : string) (w : World)
    (data : bytes) (b : Bucket) :
  open_files w !! h = Some data ->
  buckets w !! name = Some b ->
  env_upload_fileobj env cl h name key w =
    (Ok tt,
     set_buckets (set_open_files w (<[h := []]> (open_files w)))
       (<[name := put_object b key data]> (buckets w))).
Proof. intros H1 H2. cbn. unfold store_upload_fileobj. now rewrite H1, H2. Qed.

Lemma fresh_not_open (w : World) : open_files w !! fresh (dom (open_files w)) = None.
Proof. apply not_elem_of_dom, is_fresh. Qed.

Lemma close_any (h : handle) (w : World) :
  env_close env h w = (Ok tt, set_open_files w (delete h (open_files w))).
Proof. reflexivity. Qed.

Lemma run_provisions (w : World) (content : bytes) :
  buckets w !! "java-http" = None ->
  files w !! "/build/tmp/agreements.zip" = Some content ->
  run_result env w = Ok tt /\
  run_trace env w = complete_trace (fresh (dom (open_files w))) /\
  run_world env w =
    mkWorld
      (<["java-http" :=
           mkBucket "ap-south-1" Enabled {[ "agreements.zip" := [content] ]}]> (buckets w))
      (files w) (open_files w) (environ w) (argv w).
Proof.
  intros Hb Hf.
  set (h := fresh (dom (open_files w))).
  set (b1 := mkBucket "ap-south-1" Disabled ∅).
  set (b2 := mkBucket "ap-south-1" Enabled ∅).
  set (w1 := set_buckets w (<["java-http" := b1]> (buckets w))).
  set (w2 := set_buckets w1 (<["java-http" := b2]> (buckets w1))).
  set (w3 := set_open_files w2 (<[h := content]> (open_files w2))).
  assert (E : execution env w (Ok tt) (complete_trace h)
                (set_open_files
                   (set_buckets (set_open_files w3 (<[h := []]> (open_files w3)))
                      (<["java-http" := put_object b2 "agreements.zip" content]>
                         (buckets w3)))
                   (delete h (<[h := []]> (open_files w3))))).
  { eapply exec_upload_done with (w1 := w1) (w2 := w2) (w3 := w3).
    - now apply create_absent.
    - apply (versioning_present s3_client "java-http" "Enabled" w1 b1).
      apply lookup_insert_eq.
    - now apply open_present.
    - apply upload_present; [apply lookup_insert_eq|]. apply lookup_insert_eq.
    - reflexivity.
    - apply close_any. }
  apply execution_functional in E as (Hr & Ht & Hw).
  rewrite <- Hr, <- Ht, <- Hw. repeat split.
  subst w3 w2 w1. unfold set_open_files, set_buckets; cbn.
  rewrite delete_insert_eq, delete_insert_eq, delete_id by apply fresh_not_open.
  rewrite !insert_insert_eq. reflexivity.
Qed.

Lemma run_without_file (w : World) :
  buckets w !! "java-http" = None ->
  files w !! "/build/tmp/agreements.zip" = None ->
  run_result env w = Raise FileNotFound /\
  run_trace env w =
    [(CreateBucket s3_client "java-http" "ap-south-1", Returned VNone);
     (PutBucketVersioning s3_client "java-http" "Enabled", Returned VNone);
     (OpenFile "/build/tmp/agreements.zip" "rb", Raised FileNotFound)] /\
  run_world env w =
    set_buckets w (<["java-http" := mkBucket "ap-south-1" Enabled ∅]> (buckets w)).
Proof.
  intros Hb Hf.
  set (b1 := mkBucket "ap-south-1" Disabled ∅).
  set (w1 := set_buckets w (<["java-http" := b1]> (buckets w))).
  set (w2 := set_buckets w1
               (<["java-http" := mkBucket "ap-south-1" Enabled ∅]> (buckets w1))).
  assert (E : execution env w (Raise FileNotFound)
                [(create_call, Returned VNone); (versioning_call, Returned VNone);
                 (open_call, Raised FileNotFound)] w2).
  { eapply exec_open_raises with (w1 := w1) (w2 := w2).
    - now apply create_absent.
    - apply (versioning_present s3_client "java-http" "Enabled" w1 b1).
      apply lookup_insert_eq.
    - now apply open_absent. }
  apply execution_functional in E as (Hr & Ht & Hw).
  rewrite <- Hr, <- Ht, <- Hw. repeat split.
  subst w2 w1. unfold set_buckets; cbn. now rewrite insert_insert_eq.
Qed.

Lemma run_existing_bucket (w : World) (b : Bucket) :
  buckets w !! "java-http" = Some b ->
  run_result env w = Raise BucketAlreadyExists /\
  run_trace env w =
    [(CreateBucket s3_client "java-http" "ap-south-1", Raised BucketAlreadyExists)] /\
  run_world env w = w.
Proof.
  intros Hb.
  assert (E : execution env w (Raise BucketAlreadyExists)
                [(create_call, Raised BucketAlreadyExists)] w).
  { apply exec_create_raises. now apply (create_present _ _ _ _ b). }
  apply execution_functional in E as (Hr & Ht & Hw).
  now rewrite <- Hr, <- Ht, <- Hw.
Qed.

(** The [with] block alone, against a store that has the bucket. *)
Lemma upload_step_stores (w : World) (b : Bucket) (content : bytes) :
  buckets w !! "java-http" = Some b ->
  files w !! "/build/tmp/agreements.zip" = Some content ->
  fst (run (upload_step env) w) = Ok tt /\
  world (snd (run (upload_step env) w)) =
    mkWorld (<["java-http" := put_object b "agreements.zip" content]> (buckets w))
            (files w) (open_files w) (environ w) (argv w).
Proof.
  intros Hb Hf.
  unfold run, upload_step, with_open, open, upload_fileobj, close, perform, zip_file_path.
  cbn [world log].
  rewrite (open_present _ _ _ Hf).
  rewrite (upload_present _ _ _ _ _ content b); [| apply lookup_insert_eq | exact Hb].
  rewrite close_any. cbn [fst snd world].
  split; [reflexivity|].
  unfold set_open_files, set_buckets; cbn.
  now rewrite delete_insert_eq, delete_insert_eq, delete_id by apply fresh_not_open.
Qed.

Lemma provisioned_has_bucket :
  buckets provisioned_world !! "java-http" =
    Some (mkBucket "ap-south-1" Enabled {[ "agreements.zip" := [zip_bytes] ]}).
Proof.
  unfold provisioned_world.
  destruct (run_provisions zip_world zip_bytes) as (_ & _ & ->);
    [reflexivity | reflexivity |].
  apply lookup_insert_eq.
Qed.

(** No run leaves a file object open that was not open before it. *)
Lemma no_handle_leak (w : World) : open_files (run_world env w) = open_files w.
Proof.
  destruct (buckets w !! "java-http") as [b|] eqn:Hb.
  - now destruct (run_existing_bucket w b Hb) as (_ & _ & ->).
  - destruct (files w !! "/build/tmp/agreements.zip") as [content|] eqn:Hf.
    + now destruct (run_provisions w content Hb Hf) as (_ & _ & ->).
    + now destruct (run_without_file w Hb Hf) as (_ & _ & ->).
Qed.

(** No operation of the store reads the process environment. *)
Lemma store_ignores_process : env_sim same_resources env env.
Proof.
  split.
  - intros cl b l [bs1 fs1 os1 ev1 av1] [bs2 fs2 os2 ev2 av2] (Hb & Hf & Ho);
      cbn in *; subst. unfold store_create_bucket; cbn.
    destruct (bs2 !! b); repeat split.
  - intros cl b st [bs1 fs1 os1 ev1 av1] [bs2 fs2 os2 ev2 av2] (Hb & Hf & Ho);
      cbn in *; subst. unfold store_put_bucket_versioning; cbn.
    destruct (bs2 !! b); repeat split.
  - intros f m [bs1 fs1 os1 ev1 av1] [bs2 fs2 os2 ev2 av2] (Hb & Hf & Ho);
      cbn in *; subst. unfold store_open; cbn.
    destruct (readable_mode m); [|repeat split].
    destruct (fs2 !! f); repeat split.
  - intros cl h b k [bs1 fs1 os1 ev1 av1] [bs2 fs2 os2 ev2 av2] (Hb & Hf & Ho);
      cbn in *; subst. unfold store_upload_fileobj; cbn.
    destruct (os2 !! h); [|repeat split].
    destruct (bs2 !! b); repeat split.
  - intros h [bs1 fs1 os1 ev1 av1] [bs2 fs2 os2 ev2 av2] (Hb & Hf & Ho);
      cbn in *; subst. repeat split.
Qed.

(** C1. Against a fresh store (no bucket at all), a run that completes
    leaves a store whose only bucket is [java-http], created in [ap-south-1],
    with versioning [Enabled] and exactly one object: the key
    [agreements.zip], with one version, whose bytes are those of the local
    file [/build/tmp/agreements.zip]. *)
Theorem fresh_store_complete_run (w : World) :
  buckets w = ∅ ->
  run_result env w = Ok tt ->
  exists content : bytes,
    files w !! "/build/tmp/agreements.zip" = Some content /\
    buckets (run_world env w) =
      {[ "java-http" :=
           mkBucket "ap-south-1" Enabled {[ "agreements.zip" := [content] ]} ]}.
Proof.
  intros Hfresh Hok.
  assert (Hb : buckets w !! "java-http" = None) by (rewrite Hfresh; apply lookup_empty).
  destruct (files w !! "/build/tmp/agreements.zip") as [content|] eqn:Hf.
  - exists content. split; [reflexivity|].
    destruct (run_provisions w content Hb Hf) as (_ & _ & ->); cbn.
    now rewrite Hfresh.
  - destruct (run_without_file w Hb Hf) as (Hr & _). congruence.
Qed.

(** C4. Against a store in which the bucket [java-http] exists, the run
    ends with [BucketAlreadyExists] raised by [create_bucket]; that call is
    the only one made (no second attempt, no versioning request, no upload),
    the store is left as it was, and the exit status is 1. *)
Theorem existing_bucket_fails_at_create (w : World) (b : Bucket) :
  buckets w !! "java-http" = Some b ->
  run_result env w = Raise BucketAlreadyExists /\
  run_trace env w =
    [(CreateBucket s3_client "java-http" "ap-south-1", Raised BucketAlreadyExists)] /\
  run_world env w = w /\
  exit_code (run_result env w) = 1%Z.
Proof.
  intros Hb. destruct (run_existing_bucket w b Hb) as (Hr & Ht & Hw).
  rewrite Hr. now repeat split.
Qed.

(** C5, as amended.  Against a store in which the bucket [java-http] does
    not yet exist, a run for which the source path does not exist fails at
    the upload step only: [create_bucket] and [put_bucket_versioning] have
    returned, opening the file raises [FileNotFound], no upload is
    attempted, and the store keeps the bucket with versioning enabled and no
    object. *)
Theorem missing_file_fails_at_upload (w : World) :
  buckets w !! "java-http" = None ->
  files w !! "/build/tmp/agreements.zip" = None ->
  fails_at_upload_step_only w.
Proof.
  intros Hb Hf. destruct (run_without_file w Hb Hf) as (Hr & Ht & Hw).
  repeat split; try assumption.
  exists (mkBucket "ap-south-1" Enabled ∅). rewrite Hw; cbn.
  split; [apply lookup_insert_eq | now split].
Qed.

(** C8. In a store where the bucket has versioning enabled, running the
    upload step and then, the source file rewritten or not, running it a
    second time leaves under the key the versions it had before followed by
    two more: the content of the first upload, kept, and then that of the
    second. *)
Theorem second_upload_keeps_first (w : World) (b : Bucket) (first second : bytes) :
  buckets w !! "java-http" = Some b ->
  versioning b = Enabled ->
  files w !! "/build/tmp/agreements.zip" = Some first ->
  exists b2 : Bucket,
    buckets (after_upload (rewrite_source (after_upload w) second)) !! "java-http"
      = Some b2 /\
    versioning b2 = Enabled /\
    objects b2 !! "agreements.zip" =
      Some (default [] (objects b !! "agreements.zip") ++ [first; second])%list.
Proof.
  intros Hb Hv Hf. unfold after_upload at 2.
  destruct (upload_step_stores w b first Hb Hf) as (_ & ->).
  set (b1 := put_object b "agreements.zip" first).
  unfold after_upload, rewrite_source, set_files; cbn [buckets files open_files environ argv].
  edestruct (upload_step_stores
               (mkWorld (<["java-http" := b1]> (buckets w))
                        (<["/build/tmp/agreements.zip" := second]> (files w))
                        (open_files w) (environ w) (argv w)) b1 second) as (_ & ->).
  { apply lookup_insert_eq. }
  { apply lookup_insert_eq. }
  cbn [buckets]. eexists. split; [apply lookup_insert_eq|].
  subst b1. unfold put_object; cbn [versioning objects location].
  rewrite Hv. split; [reflexivity|].
  rewrite lookup_insert_eq, lookup_insert_eq. cbn.
  now rewrite <- app_assoc.
Qed.

(** Without versioning the second upload replaces the first. *)
Lemma second_upload_replaces_when_disabled (w : World) (b : Bucket) (first second : bytes) :
  buckets w !! "java-http" = Some b ->
  versioning b = Disabled ->
  files w !! "/build/tmp/agreements.zip" = Some first ->
  exists b2 : Bucket,
    buckets (after_upload (rewrite_source (after_upload w) second)) !! "java-http"
      = Some b2 /\
    objects b2 !! "agreements.zip" = Some [second].
Proof.
  intros Hb Hv Hf. unfold after_upload at 2.
  destruct (upload_step_stores w b first Hb Hf) as (_ & ->).
  set (b1 := put_object b "agreements.zip" first).
  unfold after_upload, rewrite_source, set_files; cbn [buckets files open_files environ argv].
  edestruct (upload_step_stores
               (mkWorld (<["java-http" := b1]> (buckets w))
                        (<["/build/tmp/agreements.zip" := second]> (files w))
                        (open_files w) (environ w) (argv w)) b1 second) as (_ & ->).
  { apply lookup_insert_eq. }
  { apply lookup_insert_eq. }
  cbn [buckets]. eexists. split; [apply lookup_insert_eq|].
  subst b1. unfold put_object; cbn [versioning objects location].
  rewrite Hv. now rewrite lookup_insert_eq.
Qed.

(** C5 as stated fails: with the bucket already in the store and the
    source file missing, the run does not fail at the upload step; it fails
    at [create_bucket]. *)
Lemma missing_file_with_existing_bucket :
  ~ (files existing_bucket_no_file !! "/build/tmp/agreements.zip" = None ->
     fails_at_upload_step_only existing_bucket_no_file).
Proof.
  intros H. destruct H as (Hr & _); [reflexivity|].
  destruct (run_existing_bucket existing_bucket_no_file
              (mkBucket "ap-south-1" Enabled ∅)) as (Hr' & _); [reflexivity|].
  congruence.
Qed.

(** C2 as stated fails: the second run against the same store issues one
    request, not three. *)
Lemma second_run_issues_one_request :
  remote_calls (run_trace env provisioned_world) =
    [CreateBucket s3_client "java-http" "ap-south-1"] /\
  ~ issues_three_requests env provisioned_world.
Proof.
  destruct (run_existing_bucket provisioned_world _ provisioned_has_bucket)
    as (_ & Ht & _).
  split; [now rewrite Ht|].
  intros (h & _ & H). rewrite Ht in H. discriminate.
Qed.

(** *** The theorems at concrete worlds *)

Lemma fresh_store_complete_run_witness :
  buckets zip_world = ∅ /\
  run_result env zip_world = Ok tt /\
  exists content : bytes,
    files zip_world !! "/build/tmp/agreements.zip" = Some content /\
    buckets (run_world env zip_world) =
      {[ "java-http" :=
           mkBucket "ap-south-1" Enabled {[ "agreements.zip" := [content] ]} ]}.
Proof.
  split; [reflexivity|]. split; [vm_compute; reflexivity|].
  apply (fresh_store_complete_run zip_world); [reflexivity | vm_compute; reflexivity].
Defined.

Lemma existing_bucket_fails_at_create_witness :
  buckets versioned_world !! "java-http" = Some (mkBucket "ap-south-1" Enabled ∅) /\
  run_result env versioned_world = Raise BucketAlreadyExists /\
  run_trace env versioned_world =
    [(CreateBucket s3_client "java-http" "ap-south-1", Raised BucketAlreadyExists)] /\
  run_world env versioned_world = versioned_world /\
  exit_code (run_result env versioned_world) = 1%Z.
Proof.
  split; [reflexivity|].
  apply (existing_bucket_fails_at_create versioned_world (mkBucket "ap-south-1" Enabled ∅)).
  reflexivity.
Defined.

Lemma missing_file_fails_at_upload_witness :
  buckets (fresh_world ∅) !! "java-http" = None /\
  files (fresh_world ∅) !! "/build/tmp/agreements.zip" = None /\
  fails_at_upload_step_only (fresh_world ∅).
Proof.
  split; [reflexivity|]. split; [reflexivity|].
  apply (missing_file_fails_at_upload (fresh_world ∅)); reflexivity.
Defined.

Lemma second_upload_keeps_first_witness :
  buckets versioned_world !! "java-http" = Some (mkBucket "ap-south-1" Enabled ∅) /\
  files versioned_world !! "/build/tmp/agreements.zip" = Some zip_bytes /\
  exists b2 : Bucket,
    buckets (after_upload (rewrite_source (after_upload versioned_world) [x50; x4b; x03; x04]))
      !! "java-http" = Some b2 /\
    versioning b2 = Enabled /\
    objects b2 !! "agreements.zip" = Some [zip_bytes; [x50; x4b; x03; x04]].
Proof.
  split; [reflexivity|]. split; [reflexivity|].
  exact (second_upload_keeps_first versioned_world (mkBucket "ap-south-1" Enabled ∅)
           zip_bytes [x50; x4b; x03; x04] eq_refl eq_refl eq_refl).
Defined.

End StoreRuns.

Lemma upload_only_after_bucket_and_versioning_witness :
  run_trace Store.env Store.zip_world !! 3 =
    Some (UploadFileobj s3_client 0 "java-http" "agreements.zip", Returned VNone) /\
  exists j1 j2 : nat,
    j1 < j2 /\ j2 < 3 /\
    run_trace Store.env Store.zip_world !! j1 =
      Some (CreateBucket s3_client "java-http" "ap-south-1", Returned VNone) /\
    run_trace Store.env Store.zip_world !! j2 =
      Some (PutBucketVersioning s3_client "java-http" "Enabled", Returned VNone).
Proof.
  split; [vm_compute; reflexivity|].
  apply (upload_only_after_bucket_and_versioning Store.env Store.zip_world 3
           s3_client 0 "java-http" "agreements.zip" (Returned VNone)).
  vm_compute; reflexivity.
Defined.

Lemma file_closed_after_upload_witness :
  run_trace Store.env Store.zip_world !! 3 =
    Some (UploadFileobj s3_client 0 "java-http" "agreements.zip", Returned VNone) /\
  (exists i0 : nat,
     3 = S i0 /\
     run_trace Store.env Store.zip_world !! i0 =
       Some (OpenFile "/build/tmp/agreements.zip" "rb", Returned (VFile 0))) /\
  (exists o' : outcome,
     run_trace Store.env Store.zip_world !! 4 = Some (CloseFile 0, o')) /\
  length (run_trace Store.env Store.zip_world) = 5.
Proof.
  split; [vm_compute; reflexivity|].
  apply (file_closed_after_upload Store.env Store.zip_world 3
           s3_client 0 "java-http" "agreements.zip" (Returned VNone)).
  vm_compute; reflexivity.
Defined.

Lemma one_client_one_bucket_witness :
  run_trace Store.env Store.zip_world !! 1 =
    Some (PutBucketVersioning s3_client "java-http" "Enabled", Returned VNone) /\
  is_remote (PutBucketVersioning s3_client "java-http" "Enabled") = true /\
  client_of (PutBucketVersioning s3_client "java-http" "Enabled") = Some s3_client /\
  bucket_of (PutBucketVersioning s3_client "java-http" "Enabled") = Some "java-http" /\
  client_session s3_client = session /\
  s3_client = literal_client.
Proof.
  split; [vm_compute; reflexivity|]. split; [reflexivity|].
  apply (one_client_one_bucket Store.env Store.zip_world 1
           (PutBucketVersioning s3_client "java-http" "Enabled") (Returned VNone));
    [vm_compute; reflexivity | reflexivity].
Defined.

Lemma requests_of_a_run_witness :
  run_result Store.env Store.zip_world = Ok tt /\
  issues_three_requests Store.env Store.zip_world.
Proof.
  split; [vm_compute; reflexivity|].
  apply (requests_of_a_run Store.env Store.zip_world).
  vm_compute; reflexivity.
Defined.


Lemma no_error_is_caught_witness :
  run_result Store.env Store.versioned_world = Raise BucketAlreadyExists /\
  exit_code (run_result Store.env Store.versioned_world) <> 0%Z.
Proof.
  destruct (no_error_is_caught Store.env Store.versioned_world) as (Hr & _ & _ & Hne).
  split.
  - rewrite Hr. vm_compute; reflexivity.
  - apply Hne.
    exists 0, (CreateBucket s3_client "java-http" "ap-south-1"), BucketAlreadyExists.
    vm_compute; reflexivity.
Defined.

(** ** More about every run: the file operations and the first failure *)

Section FileAndFailure.
Context {W : Type} (env : Env W).

Local Ltac run_cases w :=
  let H := fresh "Hexec" in
  pose proof (run_execution env w) as H;
  revert H;
  generalize (run_result env w) (run_trace env w) (run_world env w);
  intros ? ? ? H; destruct H.

Local Ltac index_cases i :=
  destruct i as [|[|[|[|[|?]]]]]; cbn in *; try discriminate.

(** X1. The calls of a run, those to the file system included, are an
    initial part of the five calls in the order of the program text:
    [create_bucket], [put_bucket_versioning], [open], [upload_fileobj],
    [close]; and a run always makes the first of them. *)
Theorem calls_in_program_order (w : W) :
  (exists h : handle,
     map fst (run_trace env w) `prefix_of` map fst (complete_trace h)) /\
  (exists o : outcome,
     run_trace env w !! 0 =
       Some (CreateBucket s3_client "java-http" "ap-south-1", o)).
Proof.
  run_cases w.
  - split; [exists 0; now exists (skipn 1 (map fst (complete_trace 0))) | now eexists].
  - split; [exists 0; now exists (skipn 2 (map fst (complete_trace 0))) | now eexists].
  - split; [exists 0; now exists (skipn 3 (map fst (complete_trace 0))) | now eexists].
  - split; [exists h; now exists [] | now eexists].
  - split; [exists h; now exists [] | now eexists].
Qed.

(** X2. When [create_bucket], [put_bucket_versioning] or [open] raises, the
    run stops there: that call is the last of the log, every call before it
    has returned, and the run ends with that same exception. *)
Theorem failure_before_upload_ends_run (w : W) (i : nat) (c : call) (e : exn) :
  run_trace env w !! i = Some (c, Raised e) ->
  is_upload c = false ->
  is_close c = false ->
  run_result env w = Raise e /\
  length (run_trace env w) = S i /\
  (forall (j : nat) (c' : call) (o' : outcome),
     j < i -> run_trace env w !! j = Some (c', o') -> exists v : value, o' = Returned v).
Proof.
  run_cases w; intros Hi Hup Hcl; index_cases i;
    inversion Hi; subst; try discriminate;
    (split; [reflexivity|]); (split; [reflexivity|]);
    intros j c' o' Hlt Hj; index_cases j; try lia;
    inversion Hj; eauto.
Qed.

(** X3. A file object is closed exactly when it was opened: the log holds a
    [close] of [h] if and only if it holds the [open] of the source path in
    mode [rb] that returned [h].  So no [close] follows an [open] that
    raised, and no other file object is ever closed. *)
Theorem close_pairs_with_open (w : W) (h : handle) :
  (exists (j : nat) (o' : outcome), run_trace env w !! j = Some (CloseFile h, o')) <->
  (exists i : nat,
     run_trace env w !! i =
       Some (OpenFile "/build/tmp/agreements.zip" "rb", Returned (VFile h))).
Proof.
  run_cases w; split.
  all: try (intros (j & o' & Hj); index_cases j; inversion Hj; subst; now exists 2).
  all: try (intros (i & Hi); index_cases i; inversion Hi; subst; now exists 4; eexists).
  all: intros (i & Hi); index_cases i; inversion Hi; subst; exists 4; now eexists.
Qed.

(** X4. The outcome of the [with] block: if closing the file raises, the
    run ends with the exception of [close], whatever the upload did; if the
    closing returns, the run ends with the exception of the upload when it
    raised, and normally when it returned. *)
Theorem with_block_outcome
    (w : W) (i : nat) (cl : Client) (h : handle) (b k : string) (c' : call)
    (o_upload o_close : outcome) :
  run_trace env w !! i = Some (UploadFileobj cl h b k, o_upload) ->
  run_trace env w !! (S i) = Some (c', o_close) ->
  c' = CloseFile h /\
  run_result env w =
    match o_close, o_upload with
    | Raised e', _ => Raise e'
    | Returned _, Raised e => Raise e
    | Returned _, Returned _ => Ok tt
    end.
Proof.
  run_cases w; intros Hi Hj; index_cases i;
    inversion Hi; inversion Hj; subst; (split; [reflexivity|]).
  - now destruct r as [[]|e].
  - now destruct r as [[]|e0].
Qed.

End FileAndFailure.

Lemma failure_before_upload_ends_run_witness :
  run_trace Scripted.env [None; Some NoSuchBucket] !! 1 =
    Some (PutBucketVersioning s3_client "java-http" "Enabled", Raised NoSuchBucket) /\
  run_result Scripted.env [None; Some NoSuchBucket] = Raise NoSuchBucket /\
  length (run_trace Scripted.env [None; Some NoSuchBucket]) = 2.
Proof.
  split; [reflexivity|].
  destruct (failure_before_upload_ends_run Scripted.env [None; Some NoSuchBucket] 1
              (PutBucketVersioning s3_client "java-http" "Enabled") NoSuchBucket
              eq_refl eq_refl eq_refl) as (Hr & Hl & _).
  split; assumption.
Defined.

Lemma with_block_outcome_witness :
  run_trace Scripted.env [None; None; None; None; Some (OtherException "OSError")] !! 3 =
    Some (UploadFileobj s3_client 3 "java-http" "agreements.zip", Returned VNone) /\
  run_trace Scripted.env [None; None; None; None; Some (OtherException "OSError")] !! 4 =
    Some (CloseFile 3, Raised (OtherException "OSError")) /\
  run_result Scripted.env [None; None; None; None; Some (OtherException "OSError")] =
    Raise (OtherException "OSError").
Proof.
  split; [reflexivity|]. split; [reflexivity|].
  exact (proj2 (with_block_outcome Scripted.env
                  [None; None; None; None; Some (OtherException "OSError")] 3
                  s3_client 3 "java-http" "agreements.zip" (CloseFile 3)
                  (Returned VNone) (Raised (OtherException "OSError"))
                  eq_refl eq_refl)).
Defined.

(** ** The process environment and the client library *)



